(** * stun: attribute model and decode-error taxonomy

    A shallow embedding of the Go package [stun] (errors and attributes) and
    the properties its specification states about it.

    Conventions of the embedding:
    - Go [string] is [string] (a sequence of 8-bit characters); [+] on strings
      is [+:+], bracketed to the left the way Go evaluates it.
    - [uint16] and [uint64] are [N]; no operation embedded here does arithmetic
      that could wrap, so the width shows up only as a range hypothesis.
    - [[]byte] is [list byte]; the nil slice and the empty slice are both [[]]
      (the embedded code only ever takes [len] of a slice and indexes it).
    - an index out of range is a run-time panic in Go; a function that indexes
      returns [option], with [None] for the panic.
    - a value of the interface type [error] is [option error], [None] for
      [nil]. *)

From Stdlib Require Import NArith Strings.String Strings.Ascii Strings.Byte.
From stdpp Require Import base numbers option list strings gmap.

Local Open Scope string_scope.
Local Open Scope N_scope.

(** ** Errors *)

(** [type Error string]: the type of constant errors. *)
Definition Error : Type := string.

Module Error.

(** [func (e Error) Error() string] *)
Definition Error (e : Error) : string := e.

End Error.

Module DecodeErrPlace.

(** [DecodeErrPlace] records a place where an error occurred. *)
Record t : Type := mk {
  Parent : string;
  Children : string
}.

(** Go's [==] on a struct of comparable fields: decidable equality of the
    record. *)
#[global] Instance eq_dec : EqDecision t.
Proof. solve_decision. Defined.

(** [func (p DecodeErrPlace) String() string] *)
Definition String (p : t) : string :=
  (Parent p +:+ "/") +:+ Children p.

End DecodeErrPlace.

Module DecodeErr.

(** [DecodeErr] records an error and the place where it occurred. *)
Record t : Type := mk {
  Place : DecodeErrPlace.t;
  Message : string
}.

#[global] Instance eq_dec : EqDecision t.
Proof. solve_decision. Defined.

(** [IsInvalidCookie] returns true if the error means that the magic cookie
    value is invalid. *)
Definition IsInvalidCookie (e : t) : bool :=
  bool_decide (Place e = DecodeErrPlace.mk "message" "cookie").

(** [IsPlaceParent] reports if the error place parent is [p]. *)
Definition IsPlaceParent (e : t) (p : string) : bool :=
  bool_decide (DecodeErrPlace.Parent (Place e) = p).

(** [IsPlaceChildren] reports if the error place children is [c]. *)
Definition IsPlaceChildren (e : t) (c : string) : bool :=
  bool_decide (DecodeErrPlace.Children (Place e) = c).

(** [IsPlace] reports if the error place is [p]. *)
Definition IsPlace (e : t) (p : DecodeErrPlace.t) : bool :=
  bool_decide (Place e = p).

(** [func (e DecodeErr) Error() string] *)
Definition Error (e : t) : string :=
  (("BadFormat for " +:+ DecodeErrPlace.String (Place e)) +:+ ": ")
    +:+ Message e.

End DecodeErr.

Definition newDecodeErr (parent children message : string) : DecodeErr.t :=
  {| DecodeErr.Place :=
       {| DecodeErrPlace.Parent := parent;
          DecodeErrPlace.Children := children |};
     DecodeErr.Message := message |}.

Definition newAttrDecodeErr (children message : string) : DecodeErr.t :=
  newDecodeErr "attribute" children message.

(** The interface type [error], restricted to the two implementations this
    package declares. *)
Inductive error : Type :=
  | error_Error (e : Error)
  | error_DecodeErr (e : DecodeErr.t).

#[global] Instance error_eq_dec : EqDecision error.
Proof. solve_decision. Defined.

(** Dynamic dispatch of the interface method [Error() string]. *)
Definition error_message (e : error) : string :=
  match e with
  | error_Error e => Error.Error e
  | error_DecodeErr e => DecodeErr.Error e
  end.

(** ** strconv.FormatUint, base 16

    [AttrType.String] calls [strconv.FormatUint(uint64(t), 16)] of Go's
    standard library.  For a base that is a power of two the library fills a
    buffer of 65 bytes from its end, one digit per step:
<<
      for u >= b { i--; a[i] = digits[uint(u)&m]; u >>= shift }
      i--; a[i] = digits[uint(u)]
>>
    with [b = 16], [m = 15] and [shift = 4].  [formatBits] is that loop: its
    first argument is [i], the number of free bytes left in the buffer, and
    [None] is the panic of writing before the start of the buffer. *)

Module strconv.

Definition digits : string := "0123456789abcdefghijklmnopqrstuvwxyz".

(** [digits[k]]; [k] is masked with 15 or below 16 wherever it is used. *)
Definition digit (k : N) : ascii :=
  default "?"%char (String.get (N.to_nat k) digits).

Fixpoint formatBits (i : nat) (u : N) (a : string) : option string :=
  match i with
  | O => None
  | S i' =>
      if 16 <=? u
      then formatBits i' (N.shiftr u 4) (String (digit (N.land u 15)) a)
      else Some (String (digit u) a)
  end.

Definition FormatUint16 (u : N) : option string := formatBits 65 u "".

End strconv.

(** ** fmt.Sprintf, verbs [%s] and [%x]

    [RawAttribute.String] calls [fmt.Sprintf("%s: %x", a.Type, a.Value)] of
    Go's standard library.  The verb [%s] on a value with a [String] method
    appends what the method returns; the verb [%x] on a byte slice runs
<<
      for i := 0; i < length; i++ { c := b[i]; buf = append(buf, digits[c>>4], digits[c&0xF]) }
>>
    on the output buffer, with the lowercase digits.  [fmtBx] is that loop. *)

Module fmt.

Definition ldigits : string := "0123456789abcdefx".

(** [ldigits[k]]; [k] is a byte shifted by 4 or masked with 15 wherever it is
    used. *)
Definition ldigit (k : N) : ascii :=
  default "?"%char (String.get (N.to_nat k) ldigits).

Fixpoint fmtBx (buf : string) (b : list byte) : string :=
  match b with
  | [] => buf
  | c :: rest =>
      fmtBx
        (buf +:+ String (ldigit (N.shiftr (Byte.to_N c) 4))
                   (String (ldigit (N.land (Byte.to_N c) 15)) EmptyString))
        rest
  end.

End fmt.

(** ** Attribute types *)

(** [type AttrType uint16] *)
Definition AttrType : Type := N.

(** Attributes from the comprehension-required range (0x0000-0x7FFF). *)
Definition AttrMappedAddress : AttrType := 0x0001.
Definition AttrUsername : AttrType := 0x0006.
Definition AttrMessageIntegrity : AttrType := 0x0008.
Definition AttrErrorCode : AttrType := 0x0009.
Definition AttrUnknownAttributes : AttrType := 0x000A.
Definition AttrRealm : AttrType := 0x0014.
Definition AttrNonce : AttrType := 0x0015.
Definition AttrXORMappedAddress : AttrType := 0x0020.

(** Attributes from the comprehension-optional range (0x8000-0xFFFF). *)
Definition AttrSoftware : AttrType := 0x8022.
Definition AttrAlternateServer : AttrType := 0x8023.
Definition AttrFingerprint : AttrType := 0x8028.

(** Attributes from RFC 5245 ICE. *)
Definition AttrPriority : AttrType := 0x0024.
Definition AttrUseCandidate : AttrType := 0x0025.
Definition AttrICEControlled : AttrType := 0x8029.
Definition AttrICEControlling : AttrType := 0x802A.

(** Attributes from RFC 5766 TURN. *)
Definition AttrChannelNumber : AttrType := 0x000C.
Definition AttrLifetime : AttrType := 0x000D.
Definition AttrXORPeerAddress : AttrType := 0x0012.
Definition AttrData : AttrType := 0x0013.
Definition AttrXORRelayedAddress : AttrType := 0x0016.
Definition AttrEvenPort : AttrType := 0x0018.
Definition AttrRequestedTransport : AttrType := 0x0019.
Definition AttrDontFragment : AttrType := 0x001A.
Definition AttrReservationToken : AttrType := 0x0022.

(** Attributes from An Origin Attribute for the STUN Protocol. *)
Definition AttrOrigin : AttrType := 0x802F.

(** The entries of the map literal [attrNames], in source order. *)
Definition attrNames_entries : list (AttrType * string) :=
  [ (AttrMappedAddress, "MAPPED-ADDRESS");
    (AttrUsername, "USERNAME");
    (AttrErrorCode, "ERROR-CODE");
    (AttrMessageIntegrity, "MESSAGE-INTEGRITY");
    (AttrUnknownAttributes, "UNKNOWN-ATTRIBUTES");
    (AttrRealm, "REALM");
    (AttrNonce, "NONCE");
    (AttrXORMappedAddress, "XOR-MAPPED-ADDRESS");
    (AttrSoftware, "SOFTWARE");
    (AttrAlternateServer, "ALTERNATE-SERVER");
    (AttrFingerprint, "FINGERPRINT");
    (AttrPriority, "PRIORITY");
    (AttrUseCandidate, "USE-CANDIDATE");
    (AttrICEControlled, "ICE-CONTROLLED");
    (AttrICEControlling, "ICE-CONTROLLING");
    (AttrChannelNumber, "CHANNEL-NUMBER");
    (AttrLifetime, "LIFETIME");
    (AttrXORPeerAddress, "XOR-PEER-ADDRESS");
    (AttrData, "DATA");
    (AttrXORRelayedAddress, "XOR-RELAYED-ADDRESS");
    (AttrEvenPort, "EVEN-PORT");
    (AttrRequestedTransport, "REQUESTED-TRANSPORT");
    (AttrDontFragment, "DONT-FRAGMENT");
    (AttrReservationToken, "RESERVATION-TOKEN");
    (AttrOrigin, "ORIGIN") ].

(** [var attrNames = map[AttrType]string{...}] *)
Definition attrNames : gmap N string := list_to_map attrNames_entries.

Module AttrType.

(** [Value] returns the uint16 representation of the attribute type. *)
Definition Value (t : AttrType) : N := t.

(** [func (t AttrType) String() string]; [None] only if [FormatUint] were to
    panic. *)
Definition String (t : AttrType) : option string :=
  match attrNames !! t with
  | None =>
      (* Just return hex representation of unknown attribute type. *)
      s ← strconv.FormatUint16 t; Some ("0x" +:+ s)
  | Some s => Some s
  end.

End AttrType.

(** ** Raw attributes *)

#[global] Instance byte_eq_dec : EqDecision byte := Byte.byte_eq_dec.

Module RawAttribute.

(** [RawAttribute] is a Type-Length-Value (TLV) object that can be added to a
    STUN message.  The field [Type] is [Type_] here. *)
Record t : Type := mk {
  Type_ : AttrType;
  Length : N; (* ignored while encoding *)
  Value : list byte
}.

#[global] Instance eq_dec : EqDecision t.
Proof. solve_decision. Defined.

(** [RawAttribute{}], the zero value. *)
Definition zero : t := {| Type_ := 0; Length := 0; Value := [] |}.

(** The loop of [Equal],
<<
      for i, v := range a.Value { if b.Value[i] != v { return false } }
      return true
>>
    started at index [i] on the part of [a.Value] that is left; [None] is the
    index-out-of-range panic of [b.Value[i]]. *)
Fixpoint Equal_loop (i : nat) (aValue bValue : list byte) : option bool :=
  match aValue with
  | [] => Some true
  | v :: rest =>
      match bValue !! i with
      | None => None
      | Some w =>
          if negb (Byte.eqb w v) then Some false
          else Equal_loop (S i) rest bValue
      end
  end.

(** [Equal] returns true if [a == b]. *)
Definition Equal (a b : t) : option bool :=
  if negb (Type_ a =? Type_ b) then Some false
  else if negb (Length a =? Length b) then Some false
  else if negb (length (Value b) =? length (Value a))%nat then Some false
  else Equal_loop 0 (Value a) (Value b).

(** [func (a RawAttribute) String() string], that is
    [fmt.Sprintf("%s: %x", a.Type, a.Value)]: the name of the type, a colon
    and a space, and the value in hexadecimal. *)
Definition String (a : t) : option string :=
  name ← AttrType.String (Type_ a);
  Some (fmt.fmtBx (name +:+ ": ") (Value a)).

End RawAttribute.

(** ** Attribute lists *)

(** [type Attributes []RawAttribute]: the list of message attributes. *)
Definition Attributes : Type := list RawAttribute.t.

Module Attributes.

(** [Get] returns the first attribute from the list by the type.  If the
    attribute is present the [RawAttribute] is returned and the boolean is
    true.  Otherwise the returned [RawAttribute] is empty and the boolean is
    false. *)
Fixpoint Get (a : Attributes) (t : AttrType) : RawAttribute.t * bool :=
  match a with
  | [] => (RawAttribute.zero, false)
  | candidate :: rest =>
      if RawAttribute.Type_ candidate =? t then (candidate, true)
      else Get rest t
  end.

End Attributes.

(** ** Messages *)

(** [ErrAttributeNotFound] means that an attribute with the provided attribute
    type does not exist in the message. *)
Definition ErrAttributeNotFound : Error := "Attribute not found".

Module Message.

(** Modelled from the spec: the struct [Message] is declared outside the
    embedded sources.  The specification (section 6) gives it an [Attributes]
    field of type [Attributes], read by [Get], and a raw buffer field, read by
    [AddTo]; the source names the latter [Raw]. *)
Record t : Type := mk {
  Raw : list byte;
  Attributes : Attributes
}.

(** [Get] returns the byte slice that represents the attribute value; if there
    is no attribute with such type, [ErrAttributeNotFound] is returned. *)
Definition Get (m : t) (ty : AttrType) : list byte * option error :=
  let '(v, ok) := Attributes.Get (Attributes m) ty in
  if negb ok then ([], Some (error_Error ErrAttributeNotFound))
  else (RawAttribute.Value v, None).

(** Modelled from the spec: the method [Message.Add(type, bytes)] is declared
    outside the embedded sources; the specification calls it a mutator that
    appends a payload to the message under a type.  This model appends the
    attribute to the list, with the length of the payload as its 16-bit
    [Length], and leaves the raw buffer alone. *)
Definition Add (ty : AttrType) (v : list byte) (m : t) : t :=
  {| Raw := Raw m;
     Attributes :=
       (Attributes m ++
        [ {| RawAttribute.Type_ := ty;
             RawAttribute.Length := N.of_nat (length v) mod 2 ^ 16;
             RawAttribute.Value := v |} ])%list |}.

End Message.

Section AddTo.

(** [m.Add], whatever the message type makes of it: a state change of the
    message. *)
Variable Add : AttrType → list byte → Message.t → Message.t.

(** [func (a *RawAttribute) AddTo(m *Message) error]: [AddTo] adds the
    [RawAttribute] to [m].  The result is the message after the call and the
    returned error. *)
Definition AddTo (a : RawAttribute.t) (m : Message.t)
  : Message.t * option error :=
  let m := Add (RawAttribute.Type_ a) (Message.Raw m) m in
  (m, None).

(** What the documentation of [AddTo] and the specification ask for: the
    attribute's own value goes into the message. *)
Definition AddTo_intended (a : RawAttribute.t) (m : Message.t)
  : Message.t * option error :=
  let m := Add (RawAttribute.Type_ a) (RawAttribute.Value a) m in
  (m, None).

End AddTo.

(** ** Vocabulary of the statements *)

(** The position of a character in a string, counted from zero. *)
Fixpoint position (c : ascii) (s : string) : option N :=
  match s with
  | EmptyString => None
  | String d s' => if Ascii.eqb c d then Some 0 else N.succ <$> position c s'
  end.

(** The value of a lowercase hexadecimal digit is its position among the
    sixteen digits; capitals are no digits. *)
Definition hex_digit_value (c : ascii) : option N :=
  position c "0123456789abcdef".

(** Reading a string of lowercase hexadecimal digits, most significant digit
    first, on top of the value [acc] read so far. *)
Fixpoint hex_value_from (acc : N) (s : string) : option N :=
  match s with
  | EmptyString => Some acc
  | String c s' => d ← hex_digit_value c; hex_value_from (16 * acc + d) s'
  end.

(** The number a non-empty string of lowercase hexadecimal digits denotes. *)
Definition hex_value (s : string) : option N :=
  match s with
  | EmptyString => None
  | _ => hex_value_from 0 s
  end.

(** No zero-padding: a leading digit ["0"] is the whole string. *)
Definition no_padding (s : string) : Prop :=
  match s with
  | EmptyString => False
  | String c s' => c = "0"%char → s' = EmptyString
  end.

(** Reading a string of lowercase hexadecimal digits as bytes, two digits to
    the byte, the high digit first. *)
Fixpoint bytes_of_hex (s : string) : option (list byte) :=
  match s with
  | EmptyString => Some []
  | String _ EmptyString => None
  | String c1 (String c2 s') =>
      hi ← hex_digit_value c1;
      lo ← hex_digit_value c2;
      b ← Byte.of_N (16 * hi + lo);
      bs ← bytes_of_hex s';
      Some (b :: bs)
  end.

(** The character [c] does not occur in the string [s]. *)
Definition free_of (c : ascii) (s : string) : Prop := position c s = None.

(** No attribute before position [i] of the list has type [t]. *)
Definition none_before (l : Attributes) (t : AttrType) (i : nat) : Prop :=
  ∀ k c, (k < i)%nat → l !! k = Some c → RawAttribute.Type_ c ≠ t.

(** The attribute USERNAME "bob". *)
Definition bob : RawAttribute.t :=
  RawAttribute.mk AttrUsername 3 [x62; x6f; x62]%byte.

(** A message that holds nothing but the four bytes of a raw buffer. *)
Definition four_bytes : Message.t :=
  Message.mk [x00; x01; x00; x00]%byte [].

(** * Properties *)

(** ** The decode-error taxonomy *)

Section DecodeErrors.

Implicit Types (e : DecodeErr.t) (p : DecodeErrPlace.t).

Lemma string_app_assoc (s1 s2 s3 : string) :
  (s1 +:+ s2) +:+ s3 = s1 +:+ (s2 +:+ s3).
Proof.
  induction s1 as [|c s1 IH]; [done |].
  change (String c ((s1 +:+ s2) +:+ s3) = String c (s1 +:+ (s2 +:+ s3))).
  by rewrite IH.
Qed.

(** A place is determined by its two fields. *)
Lemma DecodeErrPlace_eq_fields p q :
  p = q ↔
  DecodeErrPlace.Parent p = DecodeErrPlace.Parent q ∧
  DecodeErrPlace.Children p = DecodeErrPlace.Children q.
Proof.
  split; [by intros -> |].
  destruct p, q; simpl; intros [-> ->]; reflexivity.
Qed.

(** C6: [IsInvalidCookie] is true if and only if the place of the error is
    [{Parent: "message", Children: "cookie"}], and false for every other
    place. *)
Theorem IsInvalidCookie_iff e :
  (DecodeErr.IsInvalidCookie e = true ↔
     DecodeErr.Place e = DecodeErrPlace.mk "message" "cookie") ∧
  (DecodeErr.IsInvalidCookie e = false ↔
     DecodeErr.Place e ≠ DecodeErrPlace.mk "message" "cookie").
Proof.
  unfold DecodeErr.IsInvalidCookie; split.
  - apply bool_decide_eq_true.
  - apply bool_decide_eq_false.
Qed.

Example IsInvalidCookie_cookie :
  DecodeErr.IsInvalidCookie (newDecodeErr "message" "cookie" "bad") = true.
Proof. reflexivity. Qed.

Example IsInvalidCookie_attribute :
  DecodeErr.IsInvalidCookie (newAttrDecodeErr "cookie" "bad") = false.
Proof. reflexivity. Qed.

(** C7: [DecodeErrPlace.String] renders [<Parent>/<Children>], and
    [DecodeErr.Error] renders [BadFormat for <Parent>/<Children>: <Message>]. *)
Theorem DecodeErr_rendering :
  (∀ p,
     DecodeErrPlace.String p =
     DecodeErrPlace.Parent p +:+ "/" +:+ DecodeErrPlace.Children p) ∧
  (∀ e,
     DecodeErr.Error e =
     "BadFormat for " +:+ DecodeErrPlace.Parent (DecodeErr.Place e) +:+ "/"
       +:+ DecodeErrPlace.Children (DecodeErr.Place e) +:+ ": "
       +:+ DecodeErr.Message e).
Proof.
  split.
  - intros p. unfold DecodeErrPlace.String. apply string_app_assoc.
  - intros e. unfold DecodeErr.Error, DecodeErrPlace.String.
    by rewrite !string_app_assoc.
Qed.

Example DecodeErrPlace_String_cookie :
  DecodeErrPlace.String (DecodeErrPlace.mk "message" "cookie")
  = "message/cookie".
Proof. reflexivity. Qed.

Example DecodeErr_Error_cookie :
  DecodeErr.Error (newDecodeErr "message" "cookie" "bad value")
  = "BadFormat for message/cookie: bad value".
Proof. reflexivity. Qed.

(** C10: [IsPlace] holds exactly when [IsPlaceParent] holds of the parent and
    [IsPlaceChildren] holds of the children of the place asked for. *)
Theorem IsPlace_decomposes e p :
  DecodeErr.IsPlace e p =
  DecodeErr.IsPlaceParent e (DecodeErrPlace.Parent p) &&
  DecodeErr.IsPlaceChildren e (DecodeErrPlace.Children p).
Proof.
  unfold DecodeErr.IsPlace, DecodeErr.IsPlaceParent, DecodeErr.IsPlaceChildren.
  rewrite <- bool_decide_and.
  apply bool_decide_ext, DecodeErrPlace_eq_fields.
Qed.

End DecodeErrors.

(** ** Equality of raw attributes *)

Section RawAttributeEqual.

Implicit Types (a b : RawAttribute.t) (v w : byte) (i : nat).

Lemma byte_eqb_decide v w : Byte.eqb v w = bool_decide (v = w).
Proof.
  case_bool_decide as H.
  - by apply Byte.byte_dec_lb.
  - destruct (Byte.eqb v w) eqn:E; [| done].
    by apply Byte.byte_dec_bl in E.
Qed.

(** The loop never indexes out of range when the lengths agree, and it
    compares the rest of [a.Value] with [b.Value] from index [i] on. *)
Lemma Equal_loop_decide (rest bValue : list byte) :
  ∀ i, length bValue = (i + length rest)%nat →
  RawAttribute.Equal_loop i rest bValue
  = Some (bool_decide (rest = drop i bValue)).
Proof.
  induction rest as [|v rest IH]; intros i Hlen; simpl in *.
  - rewrite drop_ge; [by rewrite bool_decide_eq_true_2 | lia].
  - destruct (lookup_lt_is_Some_2 bValue i) as [w Hw]; [lia |].
    rewrite Hw, (drop_S _ _ _ Hw), byte_eqb_decide.
    case_bool_decide as Hwv; simpl.
    + subst w. rewrite IH by lia.
      f_equal. apply bool_decide_ext. split; [by intros -> | by intros [= ->]].
    + f_equal. symmetry. apply bool_decide_eq_false_2.
      by intros [= -> _].
Qed.

(** [Equal] never panics, and it decides equality of the three fields. *)
Lemma Equal_decide a b :
  RawAttribute.Equal a b = Some (bool_decide (a = b)).
Proof.
  unfold RawAttribute.Equal.
  destruct (N.eqb_spec (RawAttribute.Type_ a) (RawAttribute.Type_ b))
    as [HT | HT]; simpl.
  2: { f_equal. symmetry. apply bool_decide_eq_false_2. by intros ->. }
  destruct (N.eqb_spec (RawAttribute.Length a) (RawAttribute.Length b))
    as [HL | HL]; simpl.
  2: { f_equal. symmetry. apply bool_decide_eq_false_2. by intros ->. }
  destruct (Nat.eqb_spec (length (RawAttribute.Value b))
              (length (RawAttribute.Value a))) as [HV | HV]; simpl.
  2: { f_equal. symmetry. apply bool_decide_eq_false_2. by intros ->. }
  rewrite Equal_loop_decide by (simpl; lia).
  f_equal. apply bool_decide_ext. rewrite drop_0.
  destruct a, b; simpl in *; split; [intros ->; by subst | by intros [= _ _ ->]].
Qed.

(** C2: [Equal] returns false when the types differ, false when the declared
    lengths differ (whatever the values are, equal values included), false
    when the values differ in length or in some byte, and true otherwise. *)
Theorem Equal_cases a b :
  (RawAttribute.Type_ a ≠ RawAttribute.Type_ b →
     RawAttribute.Equal a b = Some false) ∧
  (RawAttribute.Length a ≠ RawAttribute.Length b →
     RawAttribute.Equal a b = Some false) ∧
  (length (RawAttribute.Value a) ≠ length (RawAttribute.Value b) →
     RawAttribute.Equal a b = Some false) ∧
  (∀ i, RawAttribute.Value a !! i ≠ RawAttribute.Value b !! i →
     RawAttribute.Equal a b = Some false) ∧
  (RawAttribute.Type_ a = RawAttribute.Type_ b →
   RawAttribute.Length a = RawAttribute.Length b →
   RawAttribute.Value a = RawAttribute.Value b →
     RawAttribute.Equal a b = Some true).
Proof.
  rewrite Equal_decide.
  repeat split; intros; f_equal;
    try (apply bool_decide_eq_false_2; by intros ->).
  apply bool_decide_eq_true_2. destruct a, b; simpl in *; by subst.
Qed.

(** Equal content under different declared lengths compares unequal. *)
Example Equal_stale_Length :
  RawAttribute.Equal
    (RawAttribute.mk AttrUsername 3 [x62; x6f; x62]%byte)
    (RawAttribute.mk AttrUsername 4 [x62; x6f; x62]%byte)
  = Some false.
Proof. reflexivity. Qed.

Example Equal_other_byte :
  RawAttribute.Equal
    (RawAttribute.mk AttrUsername 3 [x62; x6f; x62]%byte)
    (RawAttribute.mk AttrUsername 3 [x62; x6f; x63]%byte)
  = Some false.
Proof. reflexivity. Qed.

Example Equal_same :
  RawAttribute.Equal
    (RawAttribute.mk AttrUsername 3 [x62; x6f; x62]%byte)
    (RawAttribute.mk AttrUsername 3 [x62; x6f; x62]%byte)
  = Some true.
Proof. reflexivity. Qed.

(** C8: [Equal] is reflexive and symmetric. *)
Theorem Equal_refl_sym :
  (∀ a, RawAttribute.Equal a a = Some true) ∧
  (∀ a b, RawAttribute.Equal a b = RawAttribute.Equal b a).
Proof.
  split.
  - intros a. by rewrite Equal_decide, bool_decide_eq_true_2.
  - intros a b. rewrite !Equal_decide. f_equal.
    apply bool_decide_ext. split; by intros ->.
Qed.

End RawAttributeEqual.

(** ** Lookup in an attribute list *)

Section AttributesGet.

Implicit Types (l : Attributes) (t : AttrType) (a b c : RawAttribute.t).
Implicit Types (i j k : nat).

Lemma Get_first l t :
  ∀ i a, l !! i = Some a → RawAttribute.Type_ a = t → none_before l t i →
  Attributes.Get l t = (a, true).
Proof.
  induction l as [|c l IH]; intros i a Hi Ha Hbefore; [done |].
  destruct i as [|i]; simpl in *.
  - injection Hi as ->. by rewrite (proj2 (N.eqb_eq _ _) Ha).
  - assert (RawAttribute.Type_ c ≠ t) as Hc
      by (apply (Hbefore 0%nat); [lia | done]).
    rewrite (proj2 (N.eqb_neq _ _) Hc).
    apply (IH i); [done.. |].
    intros k d Hk Hd. apply (Hbefore (S k)); [lia | done].
Qed.

Lemma Get_absent l t :
  (∀ a, a ∈ l → RawAttribute.Type_ a ≠ t) →
  Attributes.Get l t = (RawAttribute.zero, false).
Proof.
  induction l as [|c l IH]; intros Hno; [done |]; simpl.
  rewrite (proj2 (N.eqb_neq _ _) (Hno c (list_elem_of_here _ _))).
  apply IH. intros a Ha. apply Hno. by apply list_elem_of_further.
Qed.

(** Whatever [Get] finds is in the list, has the type asked for, and nothing
    before it has. *)
Lemma Get_found l t a :
  Attributes.Get l t = (a, true) →
  ∃ i, l !! i = Some a ∧ RawAttribute.Type_ a = t ∧ none_before l t i.
Proof.
  induction l as [|c l IH]; [done |]; simpl.
  destruct (N.eqb_spec (RawAttribute.Type_ c) t) as [Hc | Hc].
  - intros [= ->]. exists 0%nat. repeat split; [done |].
    intros k d Hk. lia.
  - intros [i (Hi & Ha & Hbefore)]%IH. exists (S i). repeat split; [done.. |].
    intros [|k] d Hk Hd; simpl in Hd; [by injection Hd as <- |].
    apply (Hbefore k); [lia | done].
Qed.

(** When [Get] reports [false], the list has no attribute of the type. *)
Lemma Get_false_absent l t :
  snd (Attributes.Get l t) = false →
  ∀ a, a ∈ l → RawAttribute.Type_ a ≠ t.
Proof.
  induction l as [|c l IH]; intros Hfalse a Ha; [by apply elem_of_nil in Ha |].
  simpl in Hfalse.
  destruct (N.eqb_spec (RawAttribute.Type_ c) t) as [Hc | Hc]; [done |].
  apply elem_of_cons in Ha as [-> | Ha]; [done | by apply IH].
Qed.

(** C3: [Get] scans the list in order and returns the first attribute of the
    type asked for, with [true]: the attribute at the position [i] that no
    attribute of that type precedes, also when another attribute of the same
    type sits at a later position [j].  Without an attribute of the type it
    returns the zero-valued attribute and [false]. *)
Theorem Get_first_match l t :
  (∀ i a, l !! i = Some a → RawAttribute.Type_ a = t → none_before l t i →
     Attributes.Get l t = (a, true)) ∧
  (∀ i j a b, (i < j)%nat → l !! i = Some a → l !! j = Some b →
     RawAttribute.Type_ a = t → RawAttribute.Type_ b = t →
     none_before l t i →
     Attributes.Get l t = (a, true)) ∧
  ((∀ a, a ∈ l → RawAttribute.Type_ a ≠ t) →
     Attributes.Get l t = (RawAttribute.zero, false)) ∧
  (∀ a, Attributes.Get l t = (a, true) →
     ∃ i, l !! i = Some a ∧ RawAttribute.Type_ a = t ∧ none_before l t i) ∧
  (snd (Attributes.Get l t) = false →
     Attributes.Get l t = (RawAttribute.zero, false) ∧
     ∀ a, a ∈ l → RawAttribute.Type_ a ≠ t).
Proof.
  split; [apply Get_first |].
  split; [intros i j a b _ Hi _ Ha _; by apply Get_first |].
  split; [apply Get_absent |].
  split; [apply Get_found |].
  intros Hfalse. pose proof (Get_false_absent _ _ Hfalse) as Hno.
  split; [by apply Get_absent | done].
Qed.

(** Two attributes of one type: the earlier one is found. *)
Example Get_duplicate :
  Attributes.Get
    [ RawAttribute.mk AttrSoftware 1 [x01]%byte;
      RawAttribute.mk AttrUsername 1 [x02]%byte;
      RawAttribute.mk AttrUsername 1 [x03]%byte ]
    AttrUsername
  = (RawAttribute.mk AttrUsername 1 [x02]%byte, true).
Proof. reflexivity. Qed.

Example Get_missing :
  Attributes.Get [ RawAttribute.mk AttrSoftware 1 [x01]%byte ] AttrUsername
  = (RawAttribute.mk 0 0 [], false).
Proof. reflexivity. Qed.

End AttributesGet.

(** ** The message attribute accessor *)

Section MessageGet.

Implicit Types (m : Message.t) (t : AttrType) (a : RawAttribute.t).

Lemma Message_Get_absent m t :
  (∀ a, a ∈ Message.Attributes m → RawAttribute.Type_ a ≠ t) →
  Message.Get m t = ([], Some (error_Error ErrAttributeNotFound)).
Proof. intros Hno. unfold Message.Get. by rewrite (Get_absent _ _ Hno). Qed.

Lemma Message_Get_present m t i a :
  Message.Attributes m !! i = Some a → RawAttribute.Type_ a = t →
  none_before (Message.Attributes m) t i →
  Message.Get m t = (RawAttribute.Value a, None).
Proof.
  intros Hi Ha Hbefore. unfold Message.Get.
  by rewrite (Get_first _ _ _ _ Hi Ha Hbefore).
Qed.

(** An attribute of the type that is somewhere in the list has a first
    occurrence. *)
Lemma first_occurrence (l : Attributes) t a :
  a ∈ l → RawAttribute.Type_ a = t →
  ∃ i b, l !! i = Some b ∧ RawAttribute.Type_ b = t ∧ none_before l t i.
Proof.
  intros Hin Ha.
  destruct (Attributes.Get l t) as [b ok] eqn:HG.
  destruct ok.
  - apply Get_found in HG as (i & ? & ? & ?). by exists i, b.
  - assert (snd (Attributes.Get l t) = false) as Hf by by rewrite HG.
    by destruct (Get_false_absent _ _ Hf a Hin).
Qed.

(** C4: [Message.Get] returns the sentinel [ErrAttributeNotFound] exactly when
    the attribute list of the message has no attribute of the type; when it
    has one, [Get] returns the value bytes of the first such attribute and a
    nil error. *)
Theorem Message_Get_sentinel m t :
  (snd (Message.Get m t) = Some (error_Error ErrAttributeNotFound) ↔
     ∀ a, a ∈ Message.Attributes m → RawAttribute.Type_ a ≠ t) ∧
  ((∀ a, a ∈ Message.Attributes m → RawAttribute.Type_ a ≠ t) →
     Message.Get m t = ([], Some (error_Error ErrAttributeNotFound))) ∧
  (∀ i a, Message.Attributes m !! i = Some a → RawAttribute.Type_ a = t →
     none_before (Message.Attributes m) t i →
     Message.Get m t = (RawAttribute.Value a, None)) ∧
  ((∃ a, a ∈ Message.Attributes m ∧ RawAttribute.Type_ a = t) →
     ∃ a, a ∈ Message.Attributes m ∧ RawAttribute.Type_ a = t ∧
          Message.Get m t = (RawAttribute.Value a, None)).
Proof.
  split; [split |].
  - intros Herr a Hin Ha.
    destruct (first_occurrence _ _ _ Hin Ha) as (i & b & Hi & Hb & Hbefore).
    by rewrite (Message_Get_present _ _ _ _ Hi Hb Hbefore) in Herr.
  - intros Hno. by rewrite Message_Get_absent.
  - split; [apply Message_Get_absent |].
    split; [intros i a; apply Message_Get_present |].
    intros (a & Hin & Ha).
    destruct (first_occurrence _ _ _ Hin Ha) as (i & b & Hi & Hb & Hbefore).
    exists b. split; [by eapply list_elem_of_lookup_2 |].
    split; [done | by eapply Message_Get_present].
Qed.

Example Message_Get_no_username :
  Message.Get
    (Message.mk [] [ RawAttribute.mk AttrSoftware 1 [x01]%byte ]) AttrUsername
  = ([], Some (error_Error ErrAttributeNotFound)).
Proof. reflexivity. Qed.

Example Message_Get_bob :
  Message.Get
    (Message.mk [] [ RawAttribute.mk AttrUsername 3 [x62; x6f; x62]%byte ])
    AttrUsername
  = ([x62; x6f; x62]%byte, None).
Proof. reflexivity. Qed.

End MessageGet.

(** ** Adding a raw attribute to a message *)

Section AddToMessage.

Implicit Types (a : RawAttribute.t) (m : Message.t).

(** C9: [AddTo] returns a nil error, whatever the attribute, the message and
    the behaviour of [m.Add] on them. *)
Theorem AddTo_nil_error
  (Add : AttrType → list byte → Message.t → Message.t) a m :
  snd (AddTo Add a m) = None.
Proof. reflexivity. Qed.

(** C1 (the code departs from it): [AddTo] hands [m.Add] the raw buffer of
    the message, not the value of the attribute.  With an [Add] that appends
    what it is given, adding USERNAME "bob" to a message whose buffer holds
    four bytes stores those four bytes under USERNAME, and the message differs
    from the one that holds "bob". *)
Theorem AddTo_passes_message_Raw :
  (∀ (Add : AttrType → list byte → Message.t → Message.t) a m,
     fst (AddTo Add a m) = Add (RawAttribute.Type_ a) (Message.Raw m) m) ∧
  Message.Attributes (fst (AddTo Message.Add bob four_bytes))
    = [ RawAttribute.mk AttrUsername 4 [x00; x01; x00; x00]%byte ] ∧
  Message.Attributes (fst (AddTo_intended Message.Add bob four_bytes))
    = [ bob ] ∧
  Message.Get (fst (AddTo Message.Add bob four_bytes)) AttrUsername
    ≠ (RawAttribute.Value bob, None) ∧
  (∀ a m, Message.Raw m ≠ RawAttribute.Value a →
     fst (AddTo Message.Add a m) ≠ fst (AddTo_intended Message.Add a m)).
Proof.
  split; [done |]. split; [done |]. split; [done |]. split; [done |].
  intros a m Hne. unfold AddTo, AddTo_intended, Message.Add; simpl.
  intros [= Heq]. apply app_inv_head in Heq. by injection Heq.
Qed.

End AddToMessage.

Section AttrTypeString.

Implicit Types (u k : N) (h s : string) (t : AttrType).

Lemma string_app_empty_r s : s +:+ "" = s.
Proof.
  induction s as [|c s IH]; [done |].
  change (String c (s +:+ "") = String c s). by rewrite IH.
Qed.

Lemma digit_value k : k < 16 → hex_digit_value (strconv.digit k) = Some k.
Proof.
  intros Hk. destruct k as [|p]; [done |].
  do 4 (destruct p as [p|p|]; try done); lia.
Qed.

Lemma digit_zero k : k < 16 → strconv.digit k = "0"%char → k = 0.
Proof.
  intros Hk. destruct k as [|p]; [done |].
  do 4 (destruct p as [p|p|]; try done); lia.
Qed.

Lemma hex_value_from_app h1 h2 :
  ∀ acc, hex_value_from acc (h1 +:+ h2)
         = (v ← hex_value_from acc h1; hex_value_from v h2).
Proof.
  induction h1 as [|c h1 IH]; intros acc; [done |].
  change (String c h1 +:+ h2) with (String c (h1 +:+ h2)); simpl.
  destruct (hex_digit_value c); simpl; [apply IH | done].
Qed.

Lemma formatBits_hex i :
  ∀ u a, u < 16 ^ N.of_nat (S i) →
  ∃ c h, strconv.formatBits (S i) u a = Some (String c h +:+ a) ∧
         hex_value_from 0 (String c h) = Some u ∧
         (c = "0"%char → u = 0 ∧ h = "").
Proof.
  induction i as [|i IH]; intros u a Hu.
  - change (16 ^ N.of_nat 1) with 16 in Hu.
    simpl. rewrite (proj2 (N.leb_gt _ _) Hu).
    exists (strconv.digit u), "". split; [done |]. split.
    + simpl. by rewrite digit_value.
    + intros H0. split; [by apply digit_zero | done].
  - change (strconv.formatBits (S (S i)) u a) with
      (if 16 <=? u
       then strconv.formatBits (S i) (N.shiftr u 4)
              (String (strconv.digit (N.land u 15)) a)
       else Some (String (strconv.digit u) a)).
    destruct (N.leb_spec 16 u) as [Hge | Hlt].
    + assert (N.shiftr u 4 = u / 16) as Hq by apply (N.shiftr_div_pow2 u 4).
      assert (N.land u 15 = u mod 16) as Hr by apply (N.land_ones u 4).
      assert (u / 16 < 16 ^ N.of_nat (S i)) as Hq16.
      { apply N.Div0.div_lt_upper_bound.
        by rewrite (Nat2N.inj_succ (S i)), N.pow_succ_r' in Hu. }
      destruct (IH (u / 16) (String (strconv.digit (u mod 16)) a) Hq16)
        as (c & h & Hfmt & Hval & Hpad).
      rewrite Hq, Hr, Hfmt.
      exists c, (h +:+ String (strconv.digit (u mod 16)) "").
      split; [| split].
      * f_equal.
        change (String c h +:+ String (strconv.digit (u mod 16)) a
                = (String c h +:+ String (strconv.digit (u mod 16)) "") +:+ a).
        by rewrite string_app_assoc.
      * change (String c (h +:+ String (strconv.digit (u mod 16)) ""))
          with (String c h +:+ String (strconv.digit (u mod 16)) "").
        rewrite hex_value_from_app, Hval; simpl.
        rewrite digit_value by (apply N.mod_lt; lia); simpl.
        f_equal. symmetry. apply N.div_mod. lia.
      * intros H0. destruct (Hpad H0) as [Hz _].
        apply N.div_small_iff in Hz; lia.
    + exists (strconv.digit u), "". split; [done |]. split.
      * simpl. by rewrite digit_value.
      * intros H0. split; [by apply digit_zero | done].
Qed.

(** [FormatUint] does not run out of buffer on a 64-bit number, and writes
    its lowercase hexadecimal digits without padding. *)
Lemma FormatUint16_hex u :
  u < 2 ^ 64 →
  ∃ h, strconv.FormatUint16 u = Some h ∧ hex_value h = Some u ∧ no_padding h.
Proof.
  intros Hu. unfold strconv.FormatUint16.
  destruct (formatBits_hex 64 u "") as (c & h & Hfmt & Hval & Hpad).
  { eapply N.lt_trans; [exact Hu |]. by apply N.ltb_lt. }
  exists (String c h). rewrite Hfmt, string_app_empty_r.
  split; [done |]. split; [done |]. intros H0. by destruct (Hpad H0).
Qed.

(** The registry holds the entries of the map literal and nothing else. *)
Lemma attrNames_registry t (name : string) :
  attrNames !! t = Some name ↔ (t, name) ∈ attrNames_entries.
Proof.
  unfold attrNames. symmetry. apply elem_of_list_to_map.
  apply (bool_decide_unpack _). by vm_compute.
Qed.

(** C5: on every 16-bit code [String] returns a string: the registered name
    of a code of the registry, and otherwise ["0x"] followed by the lowercase
    hexadecimal digits of the code without zero-padding. *)
Theorem AttrType_String_total t :
  t < 65536 →
  ∃ s, AttrType.String t = Some s ∧
       (∀ name, (t, name) ∈ attrNames_entries → s = name) ∧
       ((∀ name, (t, name) ∉ attrNames_entries) →
          ∃ h, s = "0x" +:+ h ∧ hex_value h = Some t ∧ no_padding h).
Proof.
  intros Ht. unfold AttrType.String.
  destruct (attrNames !! t) as [registered |] eqn:Hreg.
  - exists registered. split; [done |]. split.
    + intros name Hname%attrNames_registry. congruence.
    + intros Hno. apply attrNames_registry in Hreg. by destruct (Hno registered).
  - destruct (FormatUint16_hex t) as (h & Hfmt & Hval & Hpad).
    { eapply N.lt_trans; [exact Ht | done]. }
    rewrite Hfmt; simpl. exists ("0x" +:+ h). split; [done |]. split.
    + intros name Hname%attrNames_registry. congruence.
    + intros _. by exists h.
Qed.

Example AttrType_String_software :
  AttrType.String 0x8022 = Some "SOFTWARE".
Proof. reflexivity. Qed.

Example AttrType_String_unregistered :
  AttrType.String 0x1234 = Some "0x1234".
Proof. reflexivity. Qed.

Example AttrType_String_short :
  AttrType.String 0x000B = Some "0xb" ∧ AttrType.String 0 = Some "0x0" ∧
  AttrType.String 0xFFFF = Some "0xffff".
Proof. by vm_compute. Qed.

Lemma AttrType_String_total_witness :
  0x1234 < 65536 ∧
  ∃ s, AttrType.String 0x1234 = Some s ∧
       (∀ name, (0x1234, name) ∈ attrNames_entries → s = name) ∧
       ((∀ name, (0x1234, name) ∉ attrNames_entries) →
          ∃ h, s = "0x" +:+ h ∧ hex_value h = Some 0x1234 ∧ no_padding h).
Proof. split; [done | apply (AttrType_String_total 0x1234); done]. Defined.

End AttrTypeString.

(** * Further properties *)

(** ** Strings *)

Section Strings.

Implicit Types (c d : ascii) (s r : string).

Lemma string_app_cons c s r : String c s +:+ r = String c (s +:+ r).
Proof. reflexivity. Qed.

Lemma string_app_length s r :
  String.length (s +:+ r) = (String.length s + String.length r)%nat.
Proof.
  induction s as [|c s IH]; [done |].
  rewrite string_app_cons; simpl. by rewrite IH.
Qed.

Lemma free_of_cons c d s : free_of c (String d s) ↔ c ≠ d ∧ free_of c s.
Proof.
  unfold free_of; simpl.
  destruct (Ascii.eqb_spec c d) as [-> | Hne].
  - split; [done | by intros [? _]].
  - destruct (position c s); simpl; split; try done. by intros [_ ?].
Qed.

Lemma free_of_app c s r : free_of c s → free_of c r → free_of c (s +:+ r).
Proof.
  induction s as [|d s IH]; [done |].
  rewrite string_app_cons, !free_of_cons. intros [? ?] ?. auto.
Qed.

(** Two strings cut at the first occurrence of [c] agree on both sides of the
    cut. *)
Lemma string_cut_inj c s1 :
  ∀ s2 r1 r2, free_of c s1 → free_of c s2 →
  s1 +:+ String c r1 = s2 +:+ String c r2 → s1 = s2 ∧ r1 = r2.
Proof.
  induction s1 as [|a s1 IH]; intros [|b s2] r1 r2 H1 H2;
    rewrite ?string_app_cons; intros Heq.
  - by injection Heq.
  - injection Heq as -> _. apply free_of_cons in H2. by destruct H2.
  - injection Heq as -> _. apply free_of_cons in H1. by destruct H1.
  - injection Heq as -> Heq.
    apply free_of_cons in H1 as [_ H1]. apply free_of_cons in H2 as [_ H2].
    destruct (IH _ _ _ H1 H2 Heq) as [-> ->]. done.
Qed.

End Strings.

(** ** Building decode errors *)

Section NewDecodeErr.

Implicit Types (parent children message : string) (q : DecodeErrPlace.t).

(** X2: an error built by [newDecodeErr] is at a place exactly when the place
    has the parent and the children it was built with; it is an invalid
    cookie exactly when they are ["message"] and ["cookie"]; and it renders
    with the three strings it was built from. *)
Theorem newDecodeErr_place parent children message :
  (∀ q, DecodeErr.IsPlace (newDecodeErr parent children message) q = true ↔
        DecodeErrPlace.Parent q = parent ∧
        DecodeErrPlace.Children q = children) ∧
  (∀ p, DecodeErr.IsPlaceParent (newDecodeErr parent children message) p
        = true ↔ p = parent) ∧
  (∀ c, DecodeErr.IsPlaceChildren (newDecodeErr parent children message) c
        = true ↔ c = children) ∧
  (DecodeErr.IsInvalidCookie (newDecodeErr parent children message) = true ↔
     parent = "message" ∧ children = "cookie") ∧
  DecodeErr.Error (newDecodeErr parent children message)
  = "BadFormat for " +:+ parent +:+ "/" +:+ children +:+ ": " +:+ message.
Proof.
  unfold DecodeErr.IsPlace, DecodeErr.IsPlaceParent, DecodeErr.IsPlaceChildren,
    DecodeErr.IsInvalidCookie, newDecodeErr; simpl.
  split; [| split; [| split; [| split]]].
  - intros [qp qc]. rewrite bool_decide_eq_true; simpl.
    split; [by intros [= -> ->] | by intros [-> ->]].
  - intros p. rewrite bool_decide_eq_true. split; by intros ->.
  - intros c. rewrite bool_decide_eq_true. split; by intros ->.
  - rewrite bool_decide_eq_true.
    split; [by intros [= -> ->] | by intros [-> ->]].
  - unfold DecodeErr.Error, DecodeErrPlace.String; simpl.
    by rewrite !string_app_assoc.
Qed.

(** X1: an error built by [newAttrDecodeErr] has the parent ["attribute"] and
    no other, so it is never an invalid cookie, whatever the children and the
    message are; it renders as [BadFormat for attribute/<children>:
    <message>]. *)
Theorem newAttrDecodeErr_attribute children message :
  (∀ p, DecodeErr.IsPlaceParent (newAttrDecodeErr children message) p = true
        ↔ p = "attribute") ∧
  DecodeErr.IsInvalidCookie (newAttrDecodeErr children message) = false ∧
  DecodeErr.IsPlace (newAttrDecodeErr children message)
    (DecodeErrPlace.mk "attribute" children) = true ∧
  DecodeErr.Error (newAttrDecodeErr children message)
  = "BadFormat for attribute/" +:+ children +:+ ": " +:+ message.
Proof.
  unfold newAttrDecodeErr, newDecodeErr, DecodeErr.IsPlaceParent,
    DecodeErr.IsInvalidCookie, DecodeErr.IsPlace; simpl.
  split; [| split; [| split]].
  - intros p. rewrite bool_decide_eq_true. split; by intros ->.
  - done.
  - by apply bool_decide_eq_true.
  - unfold DecodeErr.Error, DecodeErrPlace.String; simpl.
    by rewrite !string_app_assoc.
Qed.

(** X3: the rendering [<Parent>/<Children>] tells two places apart when the
    parents hold no slash; with a slash in a parent it need not. *)
Theorem DecodeErrPlace_String_inj :
  (∀ p q : DecodeErrPlace.t,
     free_of "/" (DecodeErrPlace.Parent p) →
     free_of "/" (DecodeErrPlace.Parent q) →
     DecodeErrPlace.String p = DecodeErrPlace.String q → p = q) ∧
  (∃ p q : DecodeErrPlace.t,
     p ≠ q ∧ DecodeErrPlace.String p = DecodeErrPlace.String q).
Proof.
  split.
  - intros [pp pc] [qp qc]; unfold DecodeErrPlace.String; simpl.
    intros Hp Hq. rewrite !string_app_assoc. intros Heq.
    by destruct (string_cut_inj _ _ _ _ _ Hp Hq Heq) as [-> ->].
  - exists (DecodeErrPlace.mk "a/b" "c"), (DecodeErrPlace.mk "a" "b/c").
    by split.
Qed.

End NewDecodeErr.

(** ** Names of attribute types *)

Section AttrTypeNames.

Implicit Types (t : AttrType) (u : N) (h s name : string).

(** What can be read off the 25 entries of the registry: the codes are 16-bit
    numbers, and the names hold no colon, do not start like a hexadecimal
    fallback and have between 4 and 19 characters. *)
Lemma attrNames_entries_shape :
  Forall (λ e : AttrType * string,
            e.1 < 65536 ∧ free_of ":" e.2 ∧
            (∀ h, e.2 ≠ "0x" +:+ h) ∧
            (4 ≤ String.length e.2 ≤ 19)%nat)
         attrNames_entries.
Proof.
  unfold attrNames_entries.
  repeat (apply Forall_cons; split;
          [split; [done | split; [done | split; [done | simpl; lia]]] |]).
  apply Forall_nil_2.
Qed.

Lemma attrNames_shape t name :
  attrNames !! t = Some name →
  t < 65536 ∧ free_of ":" name ∧ (∀ h, name ≠ "0x" +:+ h) ∧
  (4 ≤ String.length name ≤ 19)%nat.
Proof.
  intros Hin%attrNames_registry.
  exact (proj1 (Forall_forall _ _) attrNames_entries_shape _ Hin).
Qed.

(** No two codes of the registry share a name. *)
Lemma attrNames_inj t1 t2 name :
  attrNames !! t1 = Some name → attrNames !! t2 = Some name → t1 = t2.
Proof.
  intros H1%attrNames_registry H2%attrNames_registry.
  assert (NoDup (attrNames_entries.*2)) as Hnames
    by (apply (bool_decide_unpack _); by vm_compute).
  revert H1 H2 Hnames. generalize attrNames_entries as l.
  induction l as [|[t0 n0] l IH]; intros H1 H2 Hnames;
    [by apply elem_of_nil in H1 |].
  rewrite fmap_cons in Hnames. apply NoDup_cons in Hnames as [Hhead Hnames].
  apply elem_of_cons in H1 as [H1 | H1];
    apply elem_of_cons in H2 as [H2 | H2]; simplify_eq/=.
  - done.
  - destruct Hhead. apply list_elem_of_fmap. by exists (t2, n0).
  - destruct Hhead. apply list_elem_of_fmap. by exists (t1, n0).
  - by apply IH.
Qed.

(** The digits [FormatUint] writes for a number below [16 ^ (k + 1)] are at
    least one and at most [k + 1], whatever room the buffer has beyond. *)
Lemma formatBits_length k :
  ∀ i u a, u < 16 ^ N.of_nat (S k) → (k ≤ i)%nat →
  ∃ h, strconv.formatBits (S i) u a = Some (h +:+ a) ∧
       (1 ≤ String.length h ≤ S k)%nat.
Proof.
  induction k as [|k IH]; intros i u a Hu Hi.
  - change (16 ^ N.of_nat 1) with 16 in Hu.
    simpl. rewrite (proj2 (N.leb_gt _ _) Hu).
    exists (String (strconv.digit u) ""). split; [done | simpl; lia].
  - destruct i as [|i]; [lia |].
    change (strconv.formatBits (S (S i)) u a) with
      (if 16 <=? u
       then strconv.formatBits (S i) (N.shiftr u 4)
              (String (strconv.digit (N.land u 15)) a)
       else Some (String (strconv.digit u) a)).
    destruct (N.leb_spec 16 u) as [Hge | Hlt].
    + assert (N.shiftr u 4 = u / 16) as -> by apply (N.shiftr_div_pow2 u 4).
      assert (u / 16 < 16 ^ N.of_nat (S k)) as Hq16.
      { apply N.Div0.div_lt_upper_bound.
        by rewrite (Nat2N.inj_succ (S k)), N.pow_succ_r' in Hu. }
      destruct (IH i (u / 16) (String (strconv.digit (N.land u 15)) a) Hq16)
        as (h & Hfmt & Hlen); [lia |].
      exists (h +:+ String (strconv.digit (N.land u 15)) "").
      split.
      * rewrite Hfmt. f_equal. by rewrite string_app_assoc.
      * rewrite string_app_length; simpl. lia.
    + exists (String (strconv.digit u) ""). split; [done | simpl; lia].
Qed.

(** X4: the fallback marks the codes the registry does not know: on a 16-bit
    code [String] returns a string that starts with ["0x"] exactly when the
    code is not in [attrNames]. *)
Theorem AttrType_String_fallback_iff t :
  t < 65536 →
  (attrNames !! t = None ↔ ∃ h, AttrType.String t = Some ("0x" +:+ h)).
Proof.
  intros Ht. unfold AttrType.String.
  destruct (attrNames !! t) as [name |] eqn:Hreg.
  - split; [done |]. intros [h [= ->]].
    by destruct (attrNames_shape _ _ Hreg) as (_ & _ & Hno & _), (Hno h).
  - split; [| done]. intros _.
    destruct (FormatUint16_hex t) as (h & -> & _).
    { eapply N.lt_trans; [exact Ht | done]. }
    by exists h.
Qed.

Lemma AttrType_String_fallback_iff_witness :
  0x1234 < 65536 ∧
  (attrNames !! 0x1234 = None ↔
   ∃ h, AttrType.String 0x1234 = Some ("0x" +:+ h)).
Proof. split; [done | apply (AttrType_String_fallback_iff 0x1234); done]. Defined.

(** [String] tells any two 16-bit codes apart. *)
Lemma AttrType_String_eq t1 t2 :
  t1 < 65536 → t2 < 65536 → AttrType.String t1 = AttrType.String t2 → t1 = t2.
Proof.
  intros H1 H2. unfold AttrType.String.
  destruct (FormatUint16_hex t1) as (h1 & Hf1 & Hv1 & _);
    [eapply N.lt_trans; [exact H1 | done] |].
  destruct (FormatUint16_hex t2) as (h2 & Hf2 & Hv2 & _);
    [eapply N.lt_trans; [exact H2 | done] |].
  destruct (attrNames !! t1) as [n1 |] eqn:Hr1,
           (attrNames !! t2) as [n2 |] eqn:Hr2;
    rewrite ?Hf1, ?Hf2; simpl.
  - intros Heq%(inj Some). subst n1. by apply (attrNames_inj _ _ n2).
  - intros Heq%(inj Some).
    by destruct (attrNames_shape _ _ Hr1) as (_ & _ & Hno & _), (Hno h2).
  - intros Heq%(inj Some).
    by destruct (attrNames_shape _ _ Hr2) as (_ & _ & Hno & _), (Hno h1).
  - intros Heq%(inj Some)%(inj (String.app "0x")). congruence.
Qed.

(** X5: [String] is injective on the 16-bit codes: two codes with the same
    string are the same code. *)
Theorem AttrType_String_inj t1 t2 :
  t1 < 65536 → t2 < 65536 → AttrType.String t1 = AttrType.String t2 → t1 = t2.
Proof. apply AttrType_String_eq. Qed.

Lemma AttrType_String_inj_witness :
  0x8022 < 65536 ∧ 0x8022 < 65536 ∧
  AttrType.String 0x8022 = AttrType.String 0x8022 ∧ 0x8022 = 0x8022.
Proof.
  split; [done |]. split; [done |]. split; [done |].
  apply (AttrType_String_inj 0x8022 0x8022); done.
Defined.

(** X6: the string of a 16-bit code has between 3 and 19 characters, and at
    most 6 (["0x"] and up to four digits) when the code is not in the
    registry. *)
Theorem AttrType_String_length t :
  t < 65536 →
  ∃ s, AttrType.String t = Some s ∧
       (3 ≤ String.length s ≤ 19)%nat ∧
       (attrNames !! t = None → (String.length s ≤ 6)%nat).
Proof.
  intros Ht. unfold AttrType.String.
  destruct (attrNames !! t) as [name |] eqn:Hreg.
  - exists name. destruct (attrNames_shape _ _ Hreg) as (_ & _ & _ & Hlen).
    split; [done |]. split; [lia | done].
  - destruct (formatBits_length 3 64 t "") as (h & Hfmt & Hlen); [done | lia |].
    unfold strconv.FormatUint16. rewrite Hfmt, string_app_empty_r; simpl.
    exists ("0x" +:+ h). split; [done |].
    rewrite string_app_length; simpl. lia.
Qed.

Lemma AttrType_String_length_witness :
  0x1234 < 65536 ∧
  ∃ s, AttrType.String 0x1234 = Some s ∧
       (3 ≤ String.length s ≤ 19)%nat ∧
       (attrNames !! 0x1234 = None → (String.length s ≤ 6)%nat).
Proof. split; [done | apply (AttrType_String_length 0x1234); done]. Defined.

End AttrTypeNames.

(** ** Equality of raw attributes as a relation *)

Section RawAttributeEquivalence.

Implicit Types (a b c : RawAttribute.t).

(** X7: [Equal] never indexes [b.Value] out of range, and it returns true
    exactly when the two attributes agree on [Type], [Length] and every byte
    of [Value]. *)
Theorem Equal_total_iff a b :
  is_Some (RawAttribute.Equal a b) ∧
  (RawAttribute.Equal a b = Some true ↔
     RawAttribute.Type_ a = RawAttribute.Type_ b ∧
     RawAttribute.Length a = RawAttribute.Length b ∧
     RawAttribute.Value a = RawAttribute.Value b).
Proof.
  rewrite Equal_decide. split; [by eexists |].
  split.
  - intros [= Heq%bool_decide_eq_true]. by subst.
  - intros (HT & HL & HV). f_equal. apply bool_decide_eq_true.
    destruct a, b; simpl in *; by subst.
Qed.

(** X8: [Equal] is transitive. *)
Theorem Equal_trans a b c :
  RawAttribute.Equal a b = Some true →
  RawAttribute.Equal b c = Some true →
  RawAttribute.Equal a c = Some true.
Proof.
  rewrite !Equal_decide.
  intros [= ->%bool_decide_eq_true] [= ->%bool_decide_eq_true].
  by rewrite bool_decide_eq_true_2.
Qed.

Lemma Equal_trans_witness :
  RawAttribute.Equal bob bob = Some true ∧
  RawAttribute.Equal bob bob = Some true ∧
  RawAttribute.Equal bob bob = Some true.
Proof.
  split; [reflexivity |]. split; [reflexivity |].
  apply (Equal_trans bob bob bob); reflexivity.
Defined.

End RawAttributeEquivalence.

(** ** Lookup and appending *)

Section GetAppend.

Implicit Types (l : Attributes) (t : AttrType) (m : Message.t).

Lemma Get_app_aux l1 l2 t :
  Attributes.Get (l1 ++ l2)%list t
  = if snd (Attributes.Get l1 t) then Attributes.Get l1 t
    else Attributes.Get l2 t.
Proof.
  induction l1 as [|c l1 IH]; [done |]; simpl.
  by destruct (RawAttribute.Type_ c =? t).
Qed.

(** X9: in a list made of two parts [Get] answers from the first part when
    the type occurs there, and from the second part otherwise; attributes
    appended to a list never change what [Get] finds in it. *)
Theorem Get_app l1 l2 t :
  Attributes.Get (l1 ++ l2)%list t
  = if snd (Attributes.Get l1 t) then Attributes.Get l1 t
    else Attributes.Get l2 t.
Proof. apply Get_app_aux. Qed.

(** X10: once [Message.Get] finds a type in a message, it returns the same
    bytes, and a nil error, in every message whose attribute list starts with
    the attribute list of that message, whatever its raw buffer is. *)
Theorem Message_Get_stable m m' t (more : Attributes) :
  snd (Message.Get m t) = None →
  Message.Attributes m' = (Message.Attributes m ++ more)%list →
  Message.Get m' t = Message.Get m t.
Proof.
  unfold Message.Get. intros Hfound ->. rewrite Get_app_aux.
  destruct (Attributes.Get (Message.Attributes m) t) as [v ok].
  by destruct ok.
Qed.

Lemma Message_Get_stable_witness :
  snd (Message.Get (Message.mk [] [bob]) AttrUsername) = None ∧
  Message.Attributes
    (Message.mk [x01]%byte [bob; RawAttribute.mk AttrUsername 1 [x07]%byte])
  = (Message.Attributes (Message.mk [] [bob])
     ++ [RawAttribute.mk AttrUsername 1 [x07]%byte])%list ∧
  Message.Get
    (Message.mk [x01]%byte [bob; RawAttribute.mk AttrUsername 1 [x07]%byte])
    AttrUsername
  = Message.Get (Message.mk [] [bob]) AttrUsername.
Proof.
  split; [reflexivity |]. split; [reflexivity |].
  apply (Message_Get_stable (Message.mk [] [bob]) _ AttrUsername
           [RawAttribute.mk AttrUsername 1 [x07]%byte]); reflexivity.
Defined.

End GetAppend.

(** ** Rendering a raw attribute *)

Section RawAttributeString.

Implicit Types (a b : RawAttribute.t) (c : byte) (bs : list byte).
Implicit Types (buf h name : string).

(** The two digits written for a byte read back as the byte. *)
Lemma byte_digits_value c :
  (hi ← hex_digit_value (fmt.ldigit (N.shiftr (Byte.to_N c) 4));
   lo ← hex_digit_value (fmt.ldigit (N.land (Byte.to_N c) 15));
   Byte.of_N (16 * hi + lo)) = Some c.
Proof. destruct c; reflexivity. Qed.

Lemma fmtBx_cons buf c bs :
  fmt.fmtBx buf (c :: bs)
  = fmt.fmtBx
      (buf +:+ String (fmt.ldigit (N.shiftr (Byte.to_N c) 4))
                 (String (fmt.ldigit (N.land (Byte.to_N c) 15)) ""))
      bs.
Proof. reflexivity. Qed.

(** The loop only appends to the buffer. *)
Lemma fmtBx_buf bs : ∀ buf, fmt.fmtBx buf bs = buf +:+ fmt.fmtBx "" bs.
Proof.
  induction bs as [|c bs IH]; intros buf.
  - simpl. by rewrite string_app_empty_r.
  - rewrite !fmtBx_cons, IH, (IH ("" +:+ _)).
    by rewrite !string_app_assoc.
Qed.

Lemma fmtBx_length bs :
  String.length (fmt.fmtBx "" bs) = (2 * length bs)%nat.
Proof.
  induction bs as [|c bs IH]; [done |].
  rewrite fmtBx_cons, fmtBx_buf, string_app_length, IH; simpl. lia.
Qed.

Lemma fmtBx_bytes bs : bytes_of_hex (fmt.fmtBx "" bs) = Some bs.
Proof.
  induction bs as [|c bs IH]; [done |].
  rewrite fmtBx_cons, fmtBx_buf.
  change (("" +:+ String ?d1 (String ?d2 "")) +:+ ?r)
    with (String d1 (String d2 r)).
  pose proof (byte_digits_value c) as Hc.
  cbn [bytes_of_hex].
  destruct (hex_digit_value (fmt.ldigit (N.shiftr (Byte.to_N c) 4)))
    as [hi |]; [| done]; simpl in *.
  destruct (hex_digit_value (fmt.ldigit (N.land (Byte.to_N c) 15)))
    as [lo |]; [| done]; simpl in *.
  rewrite Hc; simpl. by rewrite IH.
Qed.

(** A string that reads as a hexadecimal number holds no colon. *)
Lemma hex_value_free_of_colon h :
  ∀ acc v, hex_value_from acc h = Some v → free_of ":" h.
Proof.
  induction h as [|d h IH]; intros acc v; [done |]; simpl.
  destruct (hex_digit_value d) as [k |] eqn:Hd; [| done]; simpl.
  intros Hv. apply free_of_cons. split; [| by eapply IH].
  intros <-. discriminate Hd.
Qed.

(** The name [AttrType.String] gives a 16-bit code holds no colon. *)
Lemma AttrType_String_free_of_colon (t : AttrType) name :
  t < 65536 → AttrType.String t = Some name → free_of ":" name.
Proof.
  intros Ht. unfold AttrType.String.
  destruct (attrNames !! t) as [registered |] eqn:Hreg.
  - intros [= <-]. by destruct (attrNames_shape _ _ Hreg) as (_ & ? & _).
  - destruct (FormatUint16_hex t) as (h & -> & Hval & _).
    { eapply N.lt_trans; [exact Ht | done]. }
    simpl. intros Heq%(inj Some). subst name.
    change ("0x" +:+ h) with (String "0" (String "x" h)).
    do 2 (apply free_of_cons; split; [done |]).
    destruct h as [|d h]; [done |]. by eapply hex_value_free_of_colon.
Qed.

Lemma AttrType_String_is_Some (t : AttrType) :
  t < 65536 → ∃ name, AttrType.String t = Some name.
Proof.
  intros Ht. unfold AttrType.String.
  destruct (FormatUint16_hex t) as (h & Hf & _);
    [eapply N.lt_trans; [exact Ht | done] |].
  destruct (attrNames !! t); rewrite ?Hf; by eexists.
Qed.

Lemma RawAttribute_String_shape a name :
  AttrType.String (RawAttribute.Type_ a) = Some name →
  RawAttribute.String a
  = Some (name +:+ String ":" (" " +:+ fmt.fmtBx "" (RawAttribute.Value a))).
Proof.
  intros Hname. unfold RawAttribute.String. rewrite Hname; simpl.
  by rewrite fmtBx_buf, string_app_assoc.
Qed.

(** X11: [String] renders an attribute of a 16-bit type as the name of the
    type, [": "], and two lowercase hexadecimal digits for each byte of the
    value, which read back as the value. *)
Theorem RawAttribute_String_render a :
  RawAttribute.Type_ a < 65536 →
  ∃ name h,
    AttrType.String (RawAttribute.Type_ a) = Some name ∧
    RawAttribute.String a = Some (name +:+ ": " +:+ h) ∧
    String.length h = (2 * length (RawAttribute.Value a))%nat ∧
    bytes_of_hex h = Some (RawAttribute.Value a).
Proof.
  intros Ht.
  destruct (AttrType_String_is_Some _ Ht) as [name Hname].
  exists name, (fmt.fmtBx "" (RawAttribute.Value a)).
  split; [done |]. split; [by apply RawAttribute_String_shape |].
  split; [apply fmtBx_length | apply fmtBx_bytes].
Qed.

Lemma RawAttribute_String_render_witness :
  RawAttribute.Type_ bob < 65536 ∧
  ∃ name h,
    AttrType.String (RawAttribute.Type_ bob) = Some name ∧
    RawAttribute.String bob = Some (name +:+ ": " +:+ h) ∧
    String.length h = (2 * length (RawAttribute.Value bob))%nat ∧
    bytes_of_hex h = Some (RawAttribute.Value bob).
Proof. split; [done | apply (RawAttribute_String_render bob); done]. Defined.

Example RawAttribute_String_bob :
  RawAttribute.String bob = Some "USERNAME: 626f62".
Proof. reflexivity. Qed.

(** X12: [String] does not show [Length], and it shows all of [Type] and
    [Value]: two attributes of 16-bit types render alike exactly when they
    have the same type and the same value. *)
Theorem RawAttribute_String_inj a b :
  RawAttribute.Type_ a < 65536 → RawAttribute.Type_ b < 65536 →
  (RawAttribute.String a = RawAttribute.String b ↔
   RawAttribute.Type_ a = RawAttribute.Type_ b ∧
   RawAttribute.Value a = RawAttribute.Value b).
Proof.
  intros Ha Hb. split.
  - destruct (AttrType_String_is_Some _ Ha) as [na Hna].
    destruct (AttrType_String_is_Some _ Hb) as [nb Hnb].
    rewrite (RawAttribute_String_shape _ _ Hna),
            (RawAttribute_String_shape _ _ Hnb).
    intros Heq%(inj Some).
    pose proof (AttrType_String_free_of_colon _ _ Ha Hna) as Hca.
    pose proof (AttrType_String_free_of_colon _ _ Hb Hnb) as Hcb.
    destruct (string_cut_inj _ _ _ _ _ Hca Hcb Heq) as [-> Hrest].
    apply (inj (String.app " ")) in Hrest.
    split.
    + apply AttrType_String_eq; [done.. | congruence].
    + pose proof (fmtBx_bytes (RawAttribute.Value a)) as Hva.
      rewrite Hrest, fmtBx_bytes in Hva. by injection Hva.
  - intros [HT HV]. unfold RawAttribute.String. by rewrite HT, HV.
Qed.

Lemma RawAttribute_String_inj_witness :
  RawAttribute.Type_ bob < 65536 ∧
  RawAttribute.Type_ (RawAttribute.mk AttrUsername 7 [x62; x6f; x62]%byte)
    < 65536 ∧
  (RawAttribute.String bob
   = RawAttribute.String (RawAttribute.mk AttrUsername 7 [x62; x6f; x62]%byte)
   ↔
   RawAttribute.Type_ bob
   = RawAttribute.Type_ (RawAttribute.mk AttrUsername 7 [x62; x6f; x62]%byte) ∧
   RawAttribute.Value bob
   = RawAttribute.Value (RawAttribute.mk AttrUsername 7 [x62; x6f; x62]%byte)).
Proof.
  split; [done |]. split; [done |].
  apply (RawAttribute_String_inj bob
           (RawAttribute.mk AttrUsername 7 [x62; x6f; x62]%byte)); done.
Defined.

End RawAttributeString.
